(** * The OpenStack (Nova) driver of the Redfish emulator

    A shallow embedding of [sushy_tools/emulator/drivers/novadriver.py]
    and the properties of its power, boot-device and inventory operations.

    The driver holds a connection [self._cc] to an OpenStack cloud.  The
    connection is a collaborator of the driver: it is modelled here as a
    value of type [Cloud] (servers, flavors, per-server metadata, and the
    log of compute commands that were issued) with the handful of calls
    the driver makes on it.  Every driver method is a computation in a
    state-and-exception monad over that value, so that both what a
    method returns or raises and what it did to the cloud can be stated. *)

From Stdlib Require Import ZArith Lia Ascii String.
From stdpp Require Import gmap strings list fin_maps pretty.

Local Open Scope string_scope.
Local Open Scope Z_scope.

(** ** Python values the driver handles *)

(** The exceptions that can leave a driver method.  [FishyError] is the
    emulator's own error class, [SDKException] stands for the exceptions
    of the cloud client (never a [FishyError]); the others are Python
    built-ins. *)
Inductive exn : Type :=
| FishyError (msg : string)
| KeyError (key : string)
| AttributeError (msg : string)
| OverflowError (msg : string)
| TypeError (msg : string)
| SDKException (msg : string).

Definition is_FishyError (e : exn) : bool :=
  match e with FishyError _ => true | _ => false end.

Definition is_KeyError (e : exn) : bool :=
  match e with KeyError _ => true | _ => false end.

Inductive result (A : Type) : Type :=
| Return (a : A)
| Raise (e : exn).
Arguments Return {A} a.
Arguments Raise {A} e.

(** The double-quote character, for the messages that embed it. *)
Definition dquote : string := String "034"%char EmptyString.

(** The values found in the dict of a client resource. *)
Inductive pyval : Type :=
| PyNone
| PyStr (s : string)
| PyDict (d : gmap string string).

(** Truthiness of [d.get(key)] for such a dict: a missing key gives
    [None]; [None], the empty string and the empty dict are falsy, every
    other value is truthy. *)
Definition truthy (o : option pyval) : bool :=
  match o with
  | None => false
  | Some PyNone => false
  | Some (PyStr EmptyString) => false
  | Some (PyStr (String _ _)) => true
  | Some (PyDict d) => negb (bool_decide (d = ∅))
  end.

(** ** The cloud connection *)

Module FlavorRef.
Record t : Type := mk { id : string }.
End FlavorRef.

Module Server.
Record t : Type := mk {
  id : string;
  name : string;
  power_state : Z;
  flavor : FlavorRef.t
}.
End Server.

Module Flavor.
Record t : Type := mk { ram : Z; vcpus : Z }.
End Flavor.

(** The resource [get_server_metadata] answers with: a server resource
    that carries the server's id and its metadata items. *)
Module ServerResource.
Record t : Type := mk { id : string; metadata : gmap string string }.
End ServerResource.

(** The compute commands the driver can issue. *)
Inductive Command : Type :=
| start_server (server : string)
| stop_server (server : string)
| reboot_server (server : string) (reboot_type : string).

Definition command_target (c : Command) : string :=
  match c with
  | start_server s | stop_server s | reboot_server s _ => s
  end.

Record Cloud : Type := mkCloud {
  servers : list Server.t;
  flavors : gmap string Flavor.t;
  server_metadata : gmap string (gmap string string);
  compute_calls : list Command
}.

(** ** The monad of driver methods *)

Definition M (A : Type) : Type := Cloud -> result A * Cloud.

Definition ret {A} (a : A) : M A := fun cc => (Return a, cc).

Definition raise {A} (e : exn) : M A := fun cc => (Raise e, cc).

Definition bind {A B} (m : M A) (k : A -> M B) : M B :=
  fun cc =>
    match m cc with
    | (Return a, cc') => k a cc'
    | (Raise e, cc') => (Raise e, cc')
    end.

Notation "x <- m ;; k" := (bind m (fun x => k))
  (at level 100, m at next level, right associativity).

(** [try: body except E: handler], where [catches] recognises [E]. *)
Definition try_except {A} (body : M A) (catches : exn -> bool) (handler : M A) : M A :=
  fun cc =>
    match body cc with
    | (Return a, cc') => (Return a, cc')
    | (Raise e, cc') => if catches e then handler cc' else (Raise e, cc')
    end.

(** [o.attr] where [o] may be [None]. *)
Definition getattr {A B} (o : option A) (attr : string) (proj : A -> B) : M B :=
  match o with
  | Some a => ret (proj a)
  | None =>
      raise (AttributeError ("'NoneType' object has no attribute '" +:+ attr +:+ "'"))
  end.

(** [d[key]] on a dict. *)
Definition getitem (d : gmap string string) (key : string) : M string :=
  match d !! key with
  | Some v => ret v
  | None => raise (KeyError key)
  end.

(** ** Python's [int / float] and [math.ceil]

    [flavor.ram / 1024.] converts the integer to a double (round to
    nearest, ties to even, 53 significant bits; [OverflowError] beyond
    the range of doubles) and divides it by 1024.  That division is exact:
    the divisor is a power of two and the quotient of a non-zero integer
    stays far above the subnormal range.  A double is modelled by its
    exact value [mant * 2 ^ expo]. *)

Record float : Type := mkFloat { mant : Z; expo : Z }.

Definition round_to_53_bits (n : Z) : Z :=
  let a := Z.abs n in
  let bits := Z.log2 a + 1 in
  if bits <=? 53 then n
  else
    let sh := bits - 53 in
    let q := Z.shiftr a sh in
    let r := a - Z.shiftl q sh in
    let half := Z.shiftl 1 (sh - 1) in
    let q' := if (half <? r) || ((r =? half) && Z.odd q) then q + 1 else q in
    Z.sgn n * Z.shiftl q' sh.

Definition float_of_int (n : Z) : M float :=
  let x := round_to_53_bits n in
  if 2 ^ 1024 <=? Z.abs x
  then raise (OverflowError "int too large to convert to float")
  else ret (mkFloat x 0).

(** [n / 1024.] *)
Definition truediv_1024 (n : Z) : M float :=
  x <- float_of_int n ;;
  ret (mkFloat (mant x) (expo x - 10)).

(** [int(math.ceil(x))] *)
Definition math_ceil (x : float) : Z :=
  if 0 <=? expo x then mant x * 2 ^ expo x
  else - ((- mant x) / 2 ^ (- expo x)).

(** [try: x = body / except E: return v], followed by the rest [k] of the
    method, which runs only when [body] did not raise. *)
Definition try_or_return {A B} (body : M A) (catches : exn -> bool) (v : B)
    (k : A -> M B) : M B :=
  fun cc =>
    match body cc with
    | (Return a, cc') => k a cc'
    | (Raise e, cc') => if catches e then (Return v, cc') else (Raise e, cc')
    end.

(** ** The calls the driver makes on the connection *)

(** How the client resolves a name or id: a server of that id if there is
    one; otherwise the one server of that name, [None] if no server has
    the name, and an exception of the client if several have it. *)
Definition lookup_server (identity : string) (l : list Server.t)
    : result (option Server.t) :=
  match List.find (fun s => String.eqb (Server.id s) identity) l with
  | Some s => Return (Some s)
  | None =>
      match List.filter (fun s => String.eqb (Server.name s) identity) l with
      | [] => Return None
      | [s] => Return (Some s)
      | _ :: _ :: _ =>
          Raise (SDKException
                   ("More than one Server exists with the name '" +:+ identity +:+ "'."))
      end
  end.

(** [self._cc.get_server(identity)] *)
Definition get_server (identity : string) : M (option Server.t) :=
  fun cc => (lookup_server identity (servers cc), cc).

(** [self._cc.get_flavor(id)]: the flavor of that id, or [None]. *)
Definition get_flavor (id : string) : M (option Flavor.t) :=
  fun cc => (Return (flavors cc !! id), cc).

(** [self._cc.list_servers()] *)
Definition list_servers : M (list Server.t) :=
  fun cc => (Return (servers cc), cc).

Definition metadata_of (id : string) (cc : Cloud) : gmap string string :=
  default ∅ (server_metadata cc !! id).

(** [self._cc.compute.get_server_metadata(id)] *)
Definition get_server_metadata (id : string) : M ServerResource.t :=
  fun cc => (Return (ServerResource.mk id (metadata_of id cc)), cc).

(** [resource.to_dict()]: the resource's attributes by name, the metadata
    items as one dict under the key metadata.  The attributes this call
    leaves unset are listed by the client with the value [None], which
    [get] does not tell from a missing key; they are left out. *)
Definition to_dict (r : ServerResource.t) : gmap string pyval :=
  <["metadata" := PyDict (ServerResource.metadata r)]>
    (<["id" := PyStr (ServerResource.id r)]> ∅).

(** [self._cc.compute.set_server_metadata(server, **metadata)]: the items
    are taken as keyword arguments only; they are created or replaced and
    the server's other items are kept.  [args] are the positional
    arguments a caller passes after the server: any of them is one more
    than the method takes. *)
Definition set_server_metadata (id : string) (args : list (gmap string string))
    (metadata : gmap string string) : M unit :=
  match args with
  | [] =>
      fun cc =>
        (Return tt,
         mkCloud (servers cc) (flavors cc)
           (<[id := metadata ∪ metadata_of id cc]> (server_metadata cc))
           (compute_calls cc))
  | _ :: _ =>
      raise (TypeError ("set_server_metadata() takes 2 positional arguments but "
                        +:+ pretty (2 + length args)%nat +:+ " were given"))
  end.

Section OpenStackDriver.

(** [self._os_cloud] *)
Variable os_cloud : string.

(** The power state code a server has once the cloud has accepted a
    compute command for it.  The driver does not wait for a command to
    complete, so nothing is assumed about this function. *)
Variable power_after : Command -> Z -> Z.

(** [self._cc.compute.start_server], [stop_server] and [reboot_server]:
    the command is logged and the cloud reacts to it. *)
Definition compute (c : Command) : M unit :=
  fun cc =>
    (Return tt,
     mkCloud
       (List.map
          (fun s =>
             if String.eqb (Server.id s) (command_target c)
             then Server.mk (Server.id s) (Server.name s)
                    (power_after c (Server.power_state s)) (Server.flavor s)
             else s)
          (servers cc))
       (flavors cc) (server_metadata cc) (compute_calls cc ++ [c])).

Definition NOVA_POWER_STATE_ON : Z := 1.

Definition BOOT_DEVICE_MAP : gmap string string :=
  <["Cd" := "cdrom"]> (<["Hdd" := "hd"]> (<["Pxe" := "network"]> ∅)).

(** [{v: k for k, v in BOOT_DEVICE_MAP.items()}] *)
Definition BOOT_DEVICE_MAP_REV : gmap string string :=
  List.fold_left (fun d kv => <[kv.2 := kv.1]> d) (map_to_list BOOT_DEVICE_MAP) ∅.

(** The call of [logger.debug] before the [raise] has no effect on the
    cloud or on the result and is left out. *)
Definition _get_instance (identity : string) : M Server.t :=
  server <- get_server identity ;;
  match server with
  | Some s => ret s
  | None =>
      let msg := "Error finding instance by UUID " +:+ dquote +:+ identity +:+ dquote
                 +:+ " at OS cloud " +:+ os_cloud +:+ dquote in
      raise (FishyError msg)
  end.

Definition _get_flavor (identity : string) : M (option Flavor.t) :=
  instance <- _get_instance identity ;;
  flavor <- get_flavor (FlavorRef.id (Server.flavor instance)) ;;
  ret flavor.

Definition driver : string := "<OpenStack compute>".

Definition systems : M (list string) :=
  l <- list_servers ;;
  ret (List.map Server.id l).

Definition uuid (identity : string) : M string :=
  instance <- _get_instance identity ;;
  ret (Server.id instance).

Definition get_power_state (identity : string) : M (option string) :=
  try_or_return (_get_instance identity) is_FishyError None (fun instance =>
    if Server.power_state instance =? NOVA_POWER_STATE_ON
    then ret (Some "On")
    else ret (Some "Off")).

Definition set_power_state (identity state : string) : M unit :=
  instance <- _get_instance identity ;;
  if String.eqb state "On" || String.eqb state "ForceOn" then
    if negb (Server.power_state instance =? NOVA_POWER_STATE_ON)
    then compute (start_server (Server.id instance))
    else ret tt
  else if String.eqb state "ForceOff" then
    if Server.power_state instance =? NOVA_POWER_STATE_ON
    then compute (stop_server (Server.id instance))
    else ret tt
  else if String.eqb state "GracefulShutdown" then
    if Server.power_state instance =? NOVA_POWER_STATE_ON
    then compute (stop_server (Server.id instance))
    else ret tt
  else if String.eqb state "GracefulRestart" then
    if Server.power_state instance =? NOVA_POWER_STATE_ON
    then compute (reboot_server (Server.id instance) "SOFT")
    else ret tt
  else if String.eqb state "ForceRestart" then
    if Server.power_state instance =? NOVA_POWER_STATE_ON
    then compute (reboot_server (Server.id instance) "HARD")
    else ret tt
  else
    raise (FishyError ("Unknown ResetType " +:+ dquote +:+ state +:+ dquote)).

Definition get_boot_device (identity : string) : M (option string) :=
  try_or_return (_get_instance identity) is_FishyError None (fun instance =>
    resource <- get_server_metadata (Server.id instance) ;;
    let metadata := to_dict resource in
    if truthy (metadata !! "libvirt:pxe-first")
    then (d <- getitem BOOT_DEVICE_MAP_REV "network" ;; ret (Some d))
    else (d <- getitem BOOT_DEVICE_MAP_REV "hd" ;; ret (Some d))).

Definition set_boot_device (identity boot_source : string) : M unit :=
  instance <- _get_instance identity ;;
  target <- try_except (getitem BOOT_DEVICE_MAP boot_source) is_KeyError
              (raise (FishyError ("Unknown power state requested: " +:+ boot_source))) ;;
  set_server_metadata (Server.id instance)
    [ {[ "libvirt:pxe-first" := if String.eqb target "network" then "1" else EmptyString ]} ]
    ∅.

Definition get_total_memory (identity : string) : M (option Z) :=
  try_or_return (_get_flavor identity) is_FishyError None (fun flavor =>
    ram <- getattr flavor "ram" Flavor.ram ;;
    x <- truediv_1024 ram ;;
    ret (Some (math_ceil x))).

Definition get_total_cpus (identity : string) : M (option Z) :=
  try_or_return (_get_flavor identity) is_FishyError None (fun flavor =>
    vcpus <- getattr flavor "vcpus" Flavor.vcpus ;;
    ret (Some vcpus)).


(** ** Sample clouds *)

(** A running server with a flavor of 1537 units of RAM and the PXE flag
    set, and a stopped one with a flavor of 2048 units and no metadata. *)
Definition vm1 : Server.t := Server.mk "5f2c" "vm1" 1 (FlavorRef.mk "f-small").
Definition vm2 : Server.t := Server.mk "9a01" "vm2" 4 (FlavorRef.mk "f-large").

Definition sample_cloud : Cloud :=
  mkCloud [vm1; vm2]
    (<["f-small" := Flavor.mk 1537 1]> (<["f-large" := Flavor.mk 2048 4]> ∅))
    (<["5f2c" := {[ "libvirt:pxe-first" := "1" ]}]> ∅)
    [].

(** A server whose flavor has been deleted from the catalog. *)
Definition orphan : Server.t := Server.mk "77e0" "orphan" 1 (FlavorRef.mk "f-gone").

Definition stale_cloud : Cloud :=
  mkCloud [orphan] (<["f-small" := Flavor.mk 1537 1]> ∅) ∅ [].

(** A server whose flavor reports more RAM units than a double holds exactly. *)
Definition huge : Server.t := Server.mk "c0de" "huge" 1 (FlavorRef.mk "f-huge").

Definition huge_cloud : Cloud :=
  mkCloud [huge] (<["f-huge" := Flavor.mk (2 ^ 53 + 1) 8]> ∅) ∅ [].

(** A server whose flavor reports a RAM figure beyond the range of doubles. *)
Definition beyond : Server.t := Server.mk "b16" "beyond" 1 (FlavorRef.mk "f-beyond").

Definition beyond_cloud : Cloud :=
  mkCloud [beyond] (<["f-beyond" := Flavor.mk (2 ^ 1024) 2]> ∅) ∅ [].

(** Two servers that were given the same name. *)
Definition twin1 : Server.t := Server.mk "1d0a" "twin" 1 (FlavorRef.mk "f-small").
Definition twin2 : Server.t := Server.mk "2e0b" "twin" 4 (FlavorRef.mk "f-small").

Definition twins_cloud : Cloud :=
  mkCloud [twin1; twin2] (<["f-small" := Flavor.mk 1537 1]> ∅) ∅ [].

(** A cloud in which every accepted command takes effect at once. *)
Definition immediate (c : Command) (code : Z) : Z :=
  match c with
  | start_server _ => 1
  | stop_server _ => 4
  | reboot_server _ _ => 1
  end.

(** ** Instance resolution *)

Lemma _get_instance_found cc identity instance :
  lookup_server identity (servers cc) = Return (Some instance) ->
  _get_instance identity cc = (Return instance, cc).
Proof.
  intros Hfound. unfold _get_instance, bind, get_server. now rewrite Hfound.
Qed.

Lemma _get_instance_missing cc identity :
  lookup_server identity (servers cc) = Return None ->
  _get_instance identity cc =
    (Raise (FishyError ("Error finding instance by UUID " +:+ dquote +:+ identity
                        +:+ dquote +:+ " at OS cloud " +:+ os_cloud +:+ dquote)),
     cc).
Proof.
  intros Hmissing. unfold _get_instance, bind, get_server. now rewrite Hmissing.
Qed.

(** An exception of the client's lookup leaves [_get_instance] as it is. *)
Lemma _get_instance_raises cc identity e :
  lookup_server identity (servers cc) = Raise e ->
  _get_instance identity cc = (Raise e, cc).
Proof.
  intros Hraise. unfold _get_instance, bind, get_server. now rewrite Hraise.
Qed.

(** The lookup raises nothing but the client's exception for a name that
    several servers have. *)
Lemma lookup_server_raises identity l e :
  lookup_server identity l = Raise e ->
  e = SDKException ("More than one Server exists with the name '" +:+ identity +:+ "'.").
Proof.
  unfold lookup_server.
  destruct (List.find _ l); [discriminate |].
  destruct (List.filter _ l) as [| s1 [| s2 rest]]; try discriminate.
  now intros [= <-].
Qed.

(** Resolution only reads the cloud. *)
Lemma _get_instance_pure cc identity :
  snd (_get_instance identity cc) = cc.
Proof.
  unfold _get_instance, bind, get_server.
  now destruct (lookup_server identity (servers cc)) as [[instance |] | e].
Qed.

Lemma _get_flavor_missing_instance cc identity :
  lookup_server identity (servers cc) = Return None ->
  exists msg, _get_flavor identity cc = (Raise (FishyError msg), cc).
Proof.
  intros Hmissing. eexists. unfold _get_flavor, bind.
  now rewrite (_get_instance_missing _ _ Hmissing).
Qed.

Lemma _get_flavor_found cc identity instance :
  lookup_server identity (servers cc) = Return (Some instance) ->
  _get_flavor identity cc =
    (Return (flavors cc !! FlavorRef.id (Server.flavor instance)), cc).
Proof.
  intros Hfound. unfold _get_flavor, bind.
  now rewrite (_get_instance_found _ _ _ Hfound).
Qed.

(** ** Missing instances *)

(** C2: when no server of the cloud has the given name or id, the four
    read-only queries return [None] without raising and leave the cloud
    as it was, while [uuid], [set_power_state] and [set_boot_device]
    raise the [FishyError] of [_get_instance], whose message carries the
    identity and the cloud's name. *)
Theorem missing_instance_queries_and_commands cc identity :
  lookup_server identity (servers cc) = Return None ->
  let not_found :=
    FishyError ("Error finding instance by UUID " +:+ dquote +:+ identity
                +:+ dquote +:+ " at OS cloud " +:+ os_cloud +:+ dquote) in
  get_power_state identity cc = (Return None, cc) /\
  get_boot_device identity cc = (Return None, cc) /\
  get_total_memory identity cc = (Return None, cc) /\
  get_total_cpus identity cc = (Return None, cc) /\
  uuid identity cc = (Raise not_found, cc) /\
  (forall state, set_power_state identity state cc = (Raise not_found, cc)) /\
  (forall boot_source, set_boot_device identity boot_source cc = (Raise not_found, cc)).
Proof.
  intros Hmissing not_found.
  pose proof (_get_instance_missing _ _ Hmissing) as Hraise.
  fold not_found in Hraise.
  repeat split.
  - unfold get_power_state, try_or_return. now rewrite Hraise.
  - unfold get_boot_device, try_or_return. now rewrite Hraise.
  - unfold get_total_memory, try_or_return, _get_flavor, bind. now rewrite Hraise.
  - unfold get_total_cpus, try_or_return, _get_flavor, bind. now rewrite Hraise.
  - unfold uuid, bind. now rewrite Hraise.
  - intros state. unfold set_power_state, bind. now rewrite Hraise.
  - intros boot_source. unfold set_boot_device, bind. now rewrite Hraise.
Qed.

(** ** Power state *)

(** C3: for an instance that resolves, [get_power_state] returns "On"
    exactly when the server's power state code is [NOVA_POWER_STATE_ON],
    and "Off" for every other code. *)
Theorem get_power_state_on_iff cc identity instance :
  lookup_server identity (servers cc) = Return (Some instance) ->
  (get_power_state identity cc = (Return (Some "On"), cc)
     <-> Server.power_state instance = NOVA_POWER_STATE_ON) /\
  (get_power_state identity cc = (Return (Some "Off"), cc)
     <-> Server.power_state instance <> NOVA_POWER_STATE_ON).
Proof.
  intros Hfound.
  unfold get_power_state, try_or_return.
  rewrite (_get_instance_found _ _ _ Hfound). unfold ret.
  destruct (Z.eqb_spec (Server.power_state instance) NOVA_POWER_STATE_ON) as [Heq | Hne].
  - split; split; intros H; try reflexivity; try assumption.
    + discriminate H.
    + contradiction.
  - split; split; intros H; try reflexivity; try assumption.
    + discriminate H.
    + contradiction.
Qed.

(** ** Boot device *)

Lemma BOOT_DEVICE_MAP_REV_network : BOOT_DEVICE_MAP_REV !! "network" = Some "Pxe".
Proof. vm_compute. reflexivity. Qed.

Lemma BOOT_DEVICE_MAP_REV_hd : BOOT_DEVICE_MAP_REV !! "hd" = Some "Hdd".
Proof. vm_compute. reflexivity. Qed.

Lemma BOOT_DEVICE_MAP_unmapped boot_source :
  boot_source <> "Pxe" -> boot_source <> "Hdd" -> boot_source <> "Cd" ->
  BOOT_DEVICE_MAP !! boot_source = None.
Proof.
  intros HPxe HHdd HCd. unfold BOOT_DEVICE_MAP.
  rewrite !lookup_insert_ne by congruence. apply lookup_empty.
Qed.

(** The dict of the metadata resource has the keys id and metadata, so
    the item the driver asks it for is never there: the server's items
    sit one level down. *)
Lemma to_dict_has_no_item r :
  to_dict r !! "libvirt:pxe-first" = None /\
  to_dict r !! "metadata" = Some (PyDict (ServerResource.metadata r)).
Proof.
  unfold to_dict. split.
  - rewrite !lookup_insert_ne by discriminate. apply lookup_empty.
  - apply lookup_insert_eq.
Qed.

(** For an instance that resolves, the read answers "Hdd" whatever the
    server's metadata holds. *)
Lemma get_boot_device_found cc identity instance :
  lookup_server identity (servers cc) = Return (Some instance) ->
  get_boot_device identity cc = (Return (Some "Hdd"), cc).
Proof.
  intros Hfound. unfold get_boot_device, try_or_return.
  rewrite (_get_instance_found _ _ _ Hfound).
  unfold bind, get_server_metadata. cbv zeta.
  rewrite (proj1 (to_dict_has_no_item _)). cbn [truthy].
  unfold getitem. now rewrite BOOT_DEVICE_MAP_REV_hd.
Qed.

(** For an instance that resolves, a boot source of the map gets as far as
    the call of [set_server_metadata], which refuses the dict passed as a
    second positional argument and writes nothing. *)
Lemma set_boot_device_mapped cc identity instance boot_source target :
  lookup_server identity (servers cc) = Return (Some instance) ->
  BOOT_DEVICE_MAP !! boot_source = Some target ->
  set_boot_device identity boot_source cc =
    (Raise (TypeError
              "set_server_metadata() takes 2 positional arguments but 3 were given"),
     cc).
Proof.
  intros Hfound Hmapped. unfold set_boot_device, bind.
  rewrite (_get_instance_found _ _ _ Hfound).
  unfold try_except, getitem. rewrite Hmapped. reflexivity.
Qed.

(** Passed as keyword arguments, the same item would be stored and read
    back from the server's metadata. *)
Lemma set_server_metadata_keywords id key value cc :
  metadata_of id (snd (set_server_metadata id [] {[ key := value ]} cc)) !! key
  = Some value.
Proof.
  unfold set_server_metadata, metadata_of at 1. simpl.
  rewrite lookup_insert_eq. simpl.
  apply lookup_union_Some_l, lookup_singleton_eq.
Qed.

(** C8: on the sample cloud the server vm1 has the item libvirt:pxe-first
    with the value "1", present and truthy, and [get_boot_device] still
    returns "Hdd": the lookup is made in the dict of the metadata
    resource, where the items sit under the key metadata. *)
Theorem get_boot_device_misses_the_flag :
  lookup_server "vm1" (servers sample_cloud) = Return (Some vm1) /\
  metadata_of (Server.id vm1) sample_cloud !! "libvirt:pxe-first" = Some "1" /\
  to_dict (ServerResource.mk (Server.id vm1) (metadata_of (Server.id vm1) sample_cloud))
    !! "libvirt:pxe-first" = None /\
  get_boot_device "vm1" sample_cloud = (Return (Some "Hdd"), sample_cloud).
Proof.
  split; [reflexivity |]. split; [reflexivity |].
  split; [apply to_dict_has_no_item |].
  apply (get_boot_device_found sample_cloud "vm1" vm1). reflexivity.
Qed.

(** C5: on the sample cloud, setting "Pxe" on the server vm2 raises
    [TypeError] from the call of [set_server_metadata] and writes
    nothing, so the sequence of the two calls ends in that error, and a
    read after the failed write returns "Hdd", not "Pxe".  Setting "Hdd"
    raises the same error. *)
Theorem boot_device_does_not_round_trip :
  lookup_server "vm2" (servers sample_cloud) = Return (Some vm2) /\
  (exists msg,
     set_boot_device "vm2" "Pxe" sample_cloud = (Raise (TypeError msg), sample_cloud) /\
     (_ <- set_boot_device "vm2" "Pxe" ;; get_boot_device "vm2") sample_cloud
       = (Raise (TypeError msg), sample_cloud) /\
     set_boot_device "vm2" "Hdd" sample_cloud = (Raise (TypeError msg), sample_cloud)) /\
  get_boot_device "vm2" (snd (set_boot_device "vm2" "Pxe" sample_cloud))
    = (Return (Some "Hdd"), sample_cloud).
Proof.
  split; [reflexivity |].
  pose proof (set_boot_device_mapped sample_cloud "vm2" vm2 "Pxe" "network"
                eq_refl eq_refl) as HPxe.
  pose proof (set_boot_device_mapped sample_cloud "vm2" vm2 "Hdd" "hd"
                eq_refl eq_refl) as HHdd.
  split.
  - eexists. split; [exact HPxe |]. split; [| exact HHdd].
    unfold bind. now rewrite HPxe.
  - rewrite HPxe. apply (get_boot_device_found sample_cloud "vm2" vm2). reflexivity.
Qed.

(** C10: [BOOT_DEVICE_MAP] has three entries, the third mapping "Cd" to
    "cdrom", so "Cd" passes the lookup; but on the sample cloud
    [set_boot_device] of "Cd" on the server vm1 does not return: the call
    of [set_server_metadata] raises [TypeError], and the server's item
    libvirt:pxe-first keeps its value "1" instead of being emptied. *)
Theorem set_boot_device_Cd_does_not_write :
  size BOOT_DEVICE_MAP = 3%nat /\
  BOOT_DEVICE_MAP !! "Cd" = Some "cdrom" /\
  lookup_server "vm1" (servers sample_cloud) = Return (Some vm1) /\
  (exists msg,
     set_boot_device "vm1" "Cd" sample_cloud = (Raise (TypeError msg), sample_cloud)) /\
  metadata_of (Server.id vm1) (snd (set_boot_device "vm1" "Cd" sample_cloud))
    !! "libvirt:pxe-first" = Some "1".
Proof.
  split; [vm_compute; reflexivity |]. split; [vm_compute; reflexivity |].
  split; [reflexivity |].
  pose proof (set_boot_device_mapped sample_cloud "vm1" vm1 "Cd" "cdrom"
                eq_refl eq_refl) as HCd.
  split; [eexists; exact HCd |]. rewrite HCd. reflexivity.
Qed.

(** C1, amended: for an instance that resolves, a boot source that is not
    a key of the three-entry [BOOT_DEVICE_MAP] (not "Pxe", "Hdd" or "Cd")
    makes [set_boot_device] raise a [FishyError] naming it, and the cloud,
    the server's metadata included, is left as it was. *)
Theorem set_boot_device_rejects_unmapped cc identity instance boot_source :
  lookup_server identity (servers cc) = Return (Some instance) ->
  boot_source <> "Pxe" -> boot_source <> "Hdd" -> boot_source <> "Cd" ->
  set_boot_device identity boot_source cc =
    (Raise (FishyError ("Unknown power state requested: " +:+ boot_source)), cc).
Proof.
  intros Hfound HPxe HHdd HCd. unfold set_boot_device, bind.
  rewrite (_get_instance_found _ _ _ Hfound).
  unfold try_except, getitem.
  now rewrite (BOOT_DEVICE_MAP_unmapped _ HPxe HHdd HCd).
Qed.

(** ** Power state commands *)

Lemma get_power_state_found cc identity instance :
  lookup_server identity (servers cc) = Return (Some instance) ->
  get_power_state identity cc =
    (Return (Some (if Server.power_state instance =? NOVA_POWER_STATE_ON
                   then "On" else "Off")),
     cc).
Proof.
  intros Hfound. unfold get_power_state, try_or_return.
  rewrite (_get_instance_found _ _ _ Hfound).
  now destruct (Server.power_state instance =? NOVA_POWER_STATE_ON).
Qed.

(** A call of [set_power_state] adds at most one command to the log. *)
Lemma set_power_state_at_most_one_command cc identity state :
  let cc' := snd (set_power_state identity state cc) in
  compute_calls cc' = compute_calls cc \/
  exists c, compute_calls cc' = (compute_calls cc ++ [c])%list.
Proof.
  unfold set_power_state, bind.
  destruct (_get_instance identity cc) as [[instance | e] cc0] eqn:Hget;
    pose proof (_get_instance_pure cc identity) as Hpure;
    rewrite Hget in Hpure; simpl in Hpure; subst cc0; [| now left].
  repeat match goal with
         | |- context [if ?b then _ else _] => destruct b
         end;
    simpl; first [ now left | right; eexists; reflexivity ].
Qed.

(** The lookup sees ids and names only, so it commutes with any change of
    the servers that keeps both, such as the cloud's reaction to a
    command. *)
Lemma lookup_server_map (f : Server.t -> Server.t) identity l :
  (forall s, Server.id (f s) = Server.id s) ->
  (forall s, Server.name (f s) = Server.name s) ->
  lookup_server identity (List.map f l)
  = match lookup_server identity l with
    | Return r => Return (option_map f r)
    | Raise e => Raise e
    end.
Proof.
  intros Hid Hname. unfold lookup_server.
  assert (List.find (fun s => String.eqb (Server.id s) identity) (List.map f l)
          = option_map f (List.find (fun s => String.eqb (Server.id s) identity) l))
    as ->.
  { induction l as [| s l IH]; [reflexivity |].
    cbn [List.map List.find]. rewrite Hid.
    now destruct (String.eqb (Server.id s) identity). }
  assert (List.filter (fun s => String.eqb (Server.name s) identity) (List.map f l)
          = List.map f (List.filter (fun s => String.eqb (Server.name s) identity) l))
    as ->.
  { induction l as [| s l IH]; [reflexivity |].
    cbn [List.map List.filter]. rewrite Hname, IH.
    now destruct (String.eqb (Server.name s) identity). }
  destruct (List.find _ l); [reflexivity |].
  now destruct (List.filter _ l) as [| s1 [| s2 rest]].
Qed.

Lemma lookup_server_after_command c identity l :
  lookup_server identity
    (List.map
       (fun s =>
          if String.eqb (Server.id s) (command_target c)
          then Server.mk (Server.id s) (Server.name s)
                 (power_after c (Server.power_state s)) (Server.flavor s)
          else s)
       l)
  = match lookup_server identity l with
    | Return r =>
        Return
          (option_map
             (fun s =>
                if String.eqb (Server.id s) (command_target c)
                then Server.mk (Server.id s) (Server.name s)
                       (power_after c (Server.power_state s)) (Server.flavor s)
                else s)
             r)
    | Raise e => Raise e
    end.
Proof.
  apply lookup_server_map; intros s;
    now destruct (String.eqb (Server.id s) (command_target c)).
Qed.

(** X15: on a cloud that starts a server as soon as it accepts the
    command, two "On" requests in a row for a stopped server issue one
    start: the second request finds the server running. *)
Lemma set_power_state_On_twice_from_off cc identity instance :
  lookup_server identity (servers cc) = Return (Some instance) ->
  Server.power_state instance <> NOVA_POWER_STATE_ON ->
  (forall id code, power_after (start_server id) code = NOVA_POWER_STATE_ON) ->
  compute_calls
    (snd ((_ <- set_power_state identity "On" ;; set_power_state identity "On") cc))
  = (compute_calls cc ++ [start_server (Server.id instance)])%list.
Proof.
  intros Hfound Hoff Hstarts.
  apply Z.eqb_neq in Hoff.
  assert (set_power_state identity "On" cc
          = compute (start_server (Server.id instance)) cc) as Hfirst.
  { unfold set_power_state, bind.
    rewrite (_get_instance_found _ _ _ Hfound). simpl. now rewrite Hoff. }
  unfold bind. rewrite Hfirst. unfold compute at 1.
  set (cc1 := mkCloud _ _ _ _).
  assert (lookup_server identity (servers cc1)
          = Return (Some (Server.mk (Server.id instance) (Server.name instance)
                    NOVA_POWER_STATE_ON (Server.flavor instance)))) as Hfound1.
  { subst cc1. cbn [servers]. rewrite lookup_server_after_command, Hfound.
    cbn [option_map command_target]. now rewrite String.eqb_refl, Hstarts. }
  unfold set_power_state, bind.
  rewrite (_get_instance_found _ _ _ Hfound1). reflexivity.
Qed.

(** C6: for an instance that resolves, a request whose target is the
    state the server is already in issues no command and leaves the cloud
    as it was: "On" and "ForceOn" on a server that reads "On" (so two
    "On" requests in a row issue no start at all), "ForceOff" and
    "GracefulShutdown" on a server that reads "Off".  And whatever the
    request, one call adds at most one command to the log. *)
Theorem set_power_state_state_checked cc identity instance :
  lookup_server identity (servers cc) = Return (Some instance) ->
  (get_power_state identity cc = (Return (Some "On"), cc) ->
     set_power_state identity "On" cc = (Return tt, cc) /\
     set_power_state identity "ForceOn" cc = (Return tt, cc) /\
     (_ <- set_power_state identity "On" ;; set_power_state identity "On") cc
       = (Return tt, cc)) /\
  (get_power_state identity cc = (Return (Some "Off"), cc) ->
     set_power_state identity "ForceOff" cc = (Return tt, cc) /\
     set_power_state identity "GracefulShutdown" cc = (Return tt, cc)) /\
  (forall state,
     let cc' := snd (set_power_state identity state cc) in
     compute_calls cc' = compute_calls cc \/
     exists c, compute_calls cc' = (compute_calls cc ++ [c])%list).
Proof.
  intros Hfound.
  rewrite (get_power_state_found _ _ _ Hfound).
  split; [| split].
  - intros Hon.
    assert ((Server.power_state instance =? NOVA_POWER_STATE_ON) = true) as Hcode
      by (destruct (Server.power_state instance =? NOVA_POWER_STATE_ON);
          [reflexivity | discriminate Hon]).
    assert (forall state, state = "On" \/ state = "ForceOn" ->
              set_power_state identity state cc = (Return tt, cc)) as Hnoop.
    { intros state [-> | ->]; unfold set_power_state, bind;
        rewrite (_get_instance_found _ _ _ Hfound); simpl; now rewrite Hcode. }
    split; [| split].
    + apply Hnoop. now left.
    + apply Hnoop. now right.
    + unfold bind at 1. rewrite (Hnoop "On") by now left. apply Hnoop. now left.
  - intros Hoff.
    assert ((Server.power_state instance =? NOVA_POWER_STATE_ON) = false) as Hcode
      by (destruct (Server.power_state instance =? NOVA_POWER_STATE_ON);
          [discriminate Hoff | reflexivity]).
    split; unfold set_power_state, bind;
      rewrite (_get_instance_found _ _ _ Hfound); simpl; now rewrite Hcode.
  - intros state. apply set_power_state_at_most_one_command.
Qed.

(** C7: for an instance that resolves, a request that is none of "On",
    "ForceOn", "ForceOff", "GracefulShutdown", "GracefulRestart" and
    "ForceRestart" makes [set_power_state] raise a [FishyError] whose
    message quotes the request, and the cloud, its log of compute
    commands included, is left as it was. *)
Theorem set_power_state_rejects_unknown cc identity instance state :
  lookup_server identity (servers cc) = Return (Some instance) ->
  ~ In state ["On"; "ForceOn"; "ForceOff"; "GracefulShutdown";
              "GracefulRestart"; "ForceRestart"] ->
  set_power_state identity state cc =
    (Raise (FishyError ("Unknown ResetType " +:+ dquote +:+ state +:+ dquote)), cc).
Proof.
  intros Hfound Hunknown. unfold set_power_state, bind.
  rewrite (_get_instance_found _ _ _ Hfound).
  repeat match goal with
         | |- context [String.eqb state ?s] =>
             destruct (String.eqb_spec state s) as [-> | _];
             [exfalso; apply Hunknown; simpl; tauto |]
         end.
  reflexivity.
Qed.

(** ** Inventory *)

(** Integers of magnitude up to [2 ^ 53] convert to a double unchanged. *)
Lemma round_to_53_bits_exact n :
  Z.abs n <= 2 ^ 53 -> round_to_53_bits n = n.
Proof.
  intros Hsmall. unfold round_to_53_bits.
  destruct (Z.leb_spec (Z.log2 (Z.abs n) + 1) 53) as [_ | Hbits]; [reflexivity |].
  assert (2 ^ 53 <= Z.abs n) as Hlarge.
  { destruct (Z.lt_ge_cases (Z.abs n) (2 ^ 53)) as [Hlt | Hge]; [| exact Hge].
    destruct (Z.eq_dec (Z.abs n) 0) as [Hzero | Hnz].
    - rewrite Hzero in Hbits. simpl in Hbits. lia.
    - apply Z.log2_lt_pow2 in Hlt; lia. }
  assert (n = 2 ^ 53 \/ n = - 2 ^ 53) as [-> | ->] by lia; vm_compute; reflexivity.
Qed.

Lemma truediv_1024_exact n cc :
  Z.abs n <= 2 ^ 53 -> truediv_1024 n cc = (Return (mkFloat n (-10)), cc).
Proof.
  intros Hsmall. unfold truediv_1024, bind, float_of_int.
  rewrite (round_to_53_bits_exact _ Hsmall).
  assert (2 ^ 53 < 2 ^ 1024) as Hrange by (apply Z.pow_lt_mono_r; lia).
  destruct (Z.leb_spec (2 ^ 1024) (Z.abs n)) as [Hover | _]; [lia | reflexivity].
Qed.

Lemma math_ceil_div_1024 n :
  1024 * (math_ceil (mkFloat n (-10)) - 1) < n <= 1024 * math_ceil (mkFloat n (-10)).
Proof.
  unfold math_ceil. simpl expo. simpl mant.
  change (0 <=? -10) with false. cbv iota.
  change (2 ^ (- -10)) with 1024.
  pose proof (Z.div_mod (- n) 1024 ltac:(lia)) as Hdiv.
  pose proof (Z.mod_pos_bound (- n) 1024 ltac:(lia)) as Hmod.
  lia.
Qed.

(** C4, amended: for an instance that resolves to a flavor whose RAM
    figure [r] has magnitude at most [2 ^ 53] (the integers a double
    holds exactly), [get_total_memory] returns the ceiling of [r / 1024]:
    the one integer [g] with [1024 * (g - 1) < r <= 1024 * g]. *)
Theorem get_total_memory_is_ceiling cc identity instance flavor :
  lookup_server identity (servers cc) = Return (Some instance) ->
  flavors cc !! FlavorRef.id (Server.flavor instance) = Some flavor ->
  Z.abs (Flavor.ram flavor) <= 2 ^ 53 ->
  exists g,
    get_total_memory identity cc = (Return (Some g), cc) /\
    1024 * (g - 1) < Flavor.ram flavor <= 1024 * g.
Proof.
  intros Hfound Hflavor Hsmall.
  exists (math_ceil (mkFloat (Flavor.ram flavor) (-10))).
  split; [| apply math_ceil_div_1024].
  unfold get_total_memory, try_or_return.
  rewrite (_get_flavor_found _ _ _ Hfound), Hflavor.
  unfold bind at 1. simpl getattr. unfold ret at 1. unfold bind.
  now rewrite (truediv_1024_exact _ _ Hsmall).
Qed.

(** When the server resolves but its flavor is no longer in the catalog,
    [_get_flavor] returns [None] and the attribute access on it raises;
    the handler for [FishyError] does not catch that. *)
Lemma inventory_of_deleted_flavor cc identity instance :
  lookup_server identity (servers cc) = Return (Some instance) ->
  flavors cc !! FlavorRef.id (Server.flavor instance) = None ->
  get_total_memory identity cc =
    (Raise (AttributeError "'NoneType' object has no attribute 'ram'"), cc) /\
  get_total_cpus identity cc =
    (Raise (AttributeError "'NoneType' object has no attribute 'vcpus'"), cc).
Proof.
  intros Hfound Hgone.
  split; unfold get_total_memory, get_total_cpus, try_or_return;
    rewrite (_get_flavor_found _ _ _ Hfound), Hgone; reflexivity.
Qed.

(** C9: on a cloud whose server "orphan" refers to the flavor "f-gone",
    which the catalog no longer has, [get_total_memory] and
    [get_total_cpus] do not return [None]: both raise [AttributeError]. *)
Theorem inventory_of_orphan_raises :
  lookup_server "orphan" (servers stale_cloud) = Return (Some orphan) /\
  flavors stale_cloud !! "f-gone" = None /\
  get_total_memory "orphan" stale_cloud =
    (Raise (AttributeError "'NoneType' object has no attribute 'ram'"), stale_cloud) /\
  get_total_cpus "orphan" stale_cloud =
    (Raise (AttributeError "'NoneType' object has no attribute 'vcpus'"), stale_cloud).
Proof.
  split; [reflexivity |]. split; [reflexivity |].
  apply (inventory_of_deleted_flavor stale_cloud "orphan" orphan); reflexivity.
Qed.

(** ** Queries only read *)


Lemma truediv_1024_pure n cc : snd (truediv_1024 n cc) = cc.
Proof.
  unfold truediv_1024, bind, float_of_int.
  now destruct (2 ^ 1024 <=? Z.abs (round_to_53_bits n)).
Qed.

(** X1: [systems], [uuid] and the four getters leave the cloud exactly as
    they found it, whatever the identity and whether they return or
    raise: no command is issued and no metadata is written. *)
Theorem queries_leave_cloud_unchanged cc identity :
  snd (systems cc) = cc /\
  snd (uuid identity cc) = cc /\
  snd (get_power_state identity cc) = cc /\
  snd (get_boot_device identity cc) = cc /\
  snd (get_total_memory identity cc) = cc /\
  snd (get_total_cpus identity cc) = cc.
Proof.
  split; [reflexivity |].
  destruct (lookup_server identity (servers cc)) as [[instance |] | e] eqn:Hlook.
  - pose proof (_get_instance_found _ _ _ Hlook) as Hget.
    pose proof (_get_flavor_found _ _ _ Hlook) as Hflavor.
    repeat split.
    + unfold uuid, bind. now rewrite Hget.
    + now rewrite (get_power_state_found _ _ _ Hlook).
    + now rewrite (get_boot_device_found _ _ _ Hlook).
    + unfold get_total_memory, try_or_return. rewrite Hflavor.
      destruct (flavors cc !! FlavorRef.id (Server.flavor instance)) as [fl |];
        [| reflexivity].
      unfold getattr, bind at 1, ret at 1, bind.
      pose proof (truediv_1024_pure (Flavor.ram fl) cc) as Hpure.
      destruct (truediv_1024 (Flavor.ram fl) cc) as [[x | e] cc']; exact Hpure.
    + unfold get_total_cpus, try_or_return. rewrite Hflavor.
      now destruct (flavors cc !! FlavorRef.id (Server.flavor instance)).
  - pose proof (_get_instance_missing _ _ Hlook) as Hget.
    repeat split.
    + unfold uuid, bind. now rewrite Hget.
    + unfold get_power_state, try_or_return. now rewrite Hget.
    + unfold get_boot_device, try_or_return. now rewrite Hget.
    + unfold get_total_memory, try_or_return, _get_flavor, bind. now rewrite Hget.
    + unfold get_total_cpus, try_or_return, _get_flavor, bind. now rewrite Hget.
  - pose proof (_get_instance_raises _ _ _ Hlook) as Hget.
    pose proof (lookup_server_raises _ _ _ Hlook) as ->.
    repeat split.
    + unfold uuid, bind. now rewrite Hget.
    + unfold get_power_state, try_or_return. now rewrite Hget.
    + unfold get_boot_device, try_or_return. now rewrite Hget.
    + unfold get_total_memory, try_or_return, _get_flavor, bind. now rewrite Hget.
    + unfold get_total_cpus, try_or_return, _get_flavor, bind. now rewrite Hget.
Qed.

(** X2: the two status polls raise only when the client's lookup does.
    When the lookup answers, with a server or with [None],
    [get_power_state] returns [None], "On" or "Off" and [get_boot_device]
    returns [None] or "Hdd".  When the lookup raises (a name that several
    servers have), the client's exception leaves the four getters as it
    is: their handlers catch [FishyError] only. *)
Theorem status_polls_raise_with_the_lookup_only cc identity :
  (forall r, lookup_server identity (servers cc) = Return r ->
     (fst (get_power_state identity cc) = Return None \/
      fst (get_power_state identity cc) = Return (Some "On") \/
      fst (get_power_state identity cc) = Return (Some "Off")) /\
     (fst (get_boot_device identity cc) = Return None \/
      fst (get_boot_device identity cc) = Return (Some "Hdd"))) /\
  (forall e, lookup_server identity (servers cc) = Raise e ->
     get_power_state identity cc = (Raise e, cc) /\
     get_boot_device identity cc = (Raise e, cc) /\
     get_total_memory identity cc = (Raise e, cc) /\
     get_total_cpus identity cc = (Raise e, cc)).
Proof.
  split.
  - intros [instance |] Hlook.
    + rewrite (get_power_state_found _ _ _ Hlook), (get_boot_device_found _ _ _ Hlook).
      split; right; [| reflexivity].
      destruct (Server.power_state instance =? NOVA_POWER_STATE_ON); [now left | now right].
    + pose proof (_get_instance_missing _ _ Hlook) as Hget.
      split; left.
      * unfold get_power_state, try_or_return. now rewrite Hget.
      * unfold get_boot_device, try_or_return. now rewrite Hget.
  - intros e Hlook.
    pose proof (_get_instance_raises _ _ _ Hlook) as Hget.
    pose proof (lookup_server_raises _ _ _ Hlook) as ->.
    repeat split.
    + unfold get_power_state, try_or_return. now rewrite Hget.
    + unfold get_boot_device, try_or_return. now rewrite Hget.
    + unfold get_total_memory, try_or_return, _get_flavor, bind. now rewrite Hget.
    + unfold get_total_cpus, try_or_return, _get_flavor, bind. now rewrite Hget.
Qed.

(** ** Listing and identifying systems *)





(** ** What each power request issues *)

Lemma set_power_state_found cc identity instance state :
  lookup_server identity (servers cc) = Return (Some instance) ->
  set_power_state identity state cc =
    (let on := Server.power_state instance =? NOVA_POWER_STATE_ON in
     let id := Server.id instance in
     if String.eqb state "On" || String.eqb state "ForceOn" then
       if negb on then compute (start_server id) else ret tt
     else if String.eqb state "ForceOff" then
       if on then compute (stop_server id) else ret tt
     else if String.eqb state "GracefulShutdown" then
       if on then compute (stop_server id) else ret tt
     else if String.eqb state "GracefulRestart" then
       if on then compute (reboot_server id "SOFT") else ret tt
     else if String.eqb state "ForceRestart" then
       if on then compute (reboot_server id "HARD") else ret tt
     else raise (FishyError ("Unknown ResetType " +:+ dquote +:+ state +:+ dquote))) cc.
Proof.
  intros Hlook. unfold set_power_state, bind.
  now rewrite (_get_instance_found _ _ _ Hlook).
Qed.

(** X5: for an instance that resolves, a request that is due issues one
    command, addressed to the server's id (not to the name it may have
    been looked up by), and returns normally: "On" and "ForceOn" on a
    server that is not on issue a start; on a server that is on,
    "ForceOff" and "GracefulShutdown" issue a stop, "GracefulRestart" a
    SOFT reboot and "ForceRestart" a HARD reboot. *)
Theorem set_power_state_issues_the_command cc identity instance :
  lookup_server identity (servers cc) = Return (Some instance) ->
  let id := Server.id instance in
  let issues state c :=
    fst (set_power_state identity state cc) = Return tt /\
    compute_calls (snd (set_power_state identity state cc))
      = (compute_calls cc ++ [c])%list in
  (Server.power_state instance <> NOVA_POWER_STATE_ON ->
     issues "On" (start_server id) /\ issues "ForceOn" (start_server id)) /\
  (Server.power_state instance = NOVA_POWER_STATE_ON ->
     issues "ForceOff" (stop_server id) /\
     issues "GracefulShutdown" (stop_server id) /\
     issues "GracefulRestart" (reboot_server id "SOFT") /\
     issues "ForceRestart" (reboot_server id "HARD")).
Proof.
  intros Hlook id issues. subst issues. cbv beta. split.
  - intros Hoff. apply Z.eqb_neq in Hoff.
    rewrite !(set_power_state_found _ _ _ _ Hlook). simpl. rewrite Hoff. simpl.
    repeat split.
  - intros Hon. apply Z.eqb_eq in Hon.
    rewrite !(set_power_state_found _ _ _ _ Hlook). simpl. rewrite Hon. simpl.
    repeat split.
Qed.

(** X6: for an instance that resolves and is not on, "GracefulRestart"
    and "ForceRestart" are accepted and do nothing: no reboot is issued,
    no error is raised, the cloud is as it was. *)
Theorem set_power_state_restart_when_off cc identity instance :
  lookup_server identity (servers cc) = Return (Some instance) ->
  Server.power_state instance <> NOVA_POWER_STATE_ON ->
  set_power_state identity "GracefulRestart" cc = (Return tt, cc) /\
  set_power_state identity "ForceRestart" cc = (Return tt, cc).
Proof.
  intros Hlook Hoff. apply Z.eqb_neq in Hoff.
  rewrite !(set_power_state_found _ _ _ _ Hlook). simpl. rewrite Hoff. now split.
Qed.

(** X7: the driver does not tell a forced request from its plain
    counterpart: on every cloud and for every identity, "ForceOn" behaves
    as "On" and "GracefulShutdown" as "ForceOff" (same result, same cloud
    afterwards). *)
Theorem set_power_state_aliases cc identity :
  set_power_state identity "ForceOn" cc = set_power_state identity "On" cc /\
  set_power_state identity "GracefulShutdown" cc = set_power_state identity "ForceOff" cc.
Proof.
  unfold set_power_state, bind.
  destruct (_get_instance identity cc) as [[instance | e] cc']; split; reflexivity.
Qed.

(** ** What the commands leave alone *)

Lemma set_boot_device_found cc identity instance boot_source :
  lookup_server identity (servers cc) = Return (Some instance) ->
  set_boot_device identity boot_source cc =
    match BOOT_DEVICE_MAP !! boot_source with
    | Some target =>
        set_server_metadata (Server.id instance)
          [ {[ "libvirt:pxe-first" :=
                 if String.eqb target "network" then "1" else EmptyString ]} ]
          ∅ cc
    | None =>
        (Raise (FishyError ("Unknown power state requested: " +:+ boot_source)), cc)
    end.
Proof.
  intros Hlook. unfold set_boot_device, bind.
  rewrite (_get_instance_found _ _ _ Hlook). unfold try_except, getitem.
  now destruct (BOOT_DEVICE_MAP !! boot_source).
Qed.

(** Whatever [set_boot_device] is given, the cloud is as it was before. *)
Lemma set_boot_device_pure cc identity boot_source :
  snd (set_boot_device identity boot_source cc) = cc.
Proof.
  destruct (lookup_server identity (servers cc)) as [[instance |] | e] eqn:Hlook.
  - rewrite (set_boot_device_found _ _ _ _ Hlook).
    now destruct (BOOT_DEVICE_MAP !! boot_source).
  - unfold set_boot_device, bind. now rewrite (_get_instance_missing _ _ Hlook).
  - unfold set_boot_device, bind. now rewrite (_get_instance_raises _ _ _ Hlook).
Qed.

(** X8: each command keeps to its own part of the cloud, whatever its
    arguments and whether it returns or raises: [set_power_state] never
    writes metadata and never touches the flavor catalog, and
    [set_boot_device] never issues a compute command and never changes a
    server record or the flavor catalog. *)
Theorem commands_keep_to_their_part cc identity arg :
  server_metadata (snd (set_power_state identity arg cc)) = server_metadata cc /\
  flavors (snd (set_power_state identity arg cc)) = flavors cc /\
  compute_calls (snd (set_boot_device identity arg cc)) = compute_calls cc /\
  servers (snd (set_boot_device identity arg cc)) = servers cc /\
  flavors (snd (set_boot_device identity arg cc)) = flavors cc.
Proof.
  rewrite set_boot_device_pure.
  split; [| split]; [| | repeat split];
    (destruct (lookup_server identity (servers cc)) as [[instance |] | e] eqn:Hlook;
     [ rewrite (set_power_state_found _ _ _ _ Hlook); cbv zeta;
       repeat match goal with
              | |- context [if ?b then _ else _] => destruct b
              end; reflexivity
     | unfold set_power_state, bind; now rewrite (_get_instance_missing _ _ Hlook)
     | unfold set_power_state, bind; now rewrite (_get_instance_raises _ _ _ Hlook) ]).
Qed.

(** X9: for an instance that resolves, [set_boot_device] changes at most
    the one metadata item libvirt:pxe-first of that server: its other
    items keep their values, and the metadata of every other server is
    untouched.  This holds for accepted and for rejected boot sources
    (the refused write of an accepted one changes nothing at all). *)
Theorem set_boot_device_writes_one_item cc identity instance boot_source :
  lookup_server identity (servers cc) = Return (Some instance) ->
  (forall key, key <> "libvirt:pxe-first" ->
     metadata_of (Server.id instance) (snd (set_boot_device identity boot_source cc)) !! key
     = metadata_of (Server.id instance) cc !! key) /\
  (forall id, id <> Server.id instance ->
     metadata_of id (snd (set_boot_device identity boot_source cc)) = metadata_of id cc).
Proof.
  intros _. rewrite set_boot_device_pure. now split.
Qed.

(** ** Boot sources *)

Lemma BOOT_DEVICE_MAP_keys boot_source :
  In boot_source ["Pxe"; "Hdd"; "Cd"] <-> is_Some (BOOT_DEVICE_MAP !! boot_source).
Proof.
  split.
  - intros [<- | [<- | [<- | []]]]; eexists; reflexivity.
  - intros [target Hmapped]. simpl.
    destruct (decide (boot_source = "Pxe")) as [-> | HPxe]; [tauto |].
    destruct (decide (boot_source = "Hdd")) as [-> | HHdd]; [tauto |].
    destruct (decide (boot_source = "Cd")) as [-> | HCd]; [tauto |].
    rewrite BOOT_DEVICE_MAP_unmapped in Hmapped by congruence. discriminate Hmapped.
Qed.

(** X10: for an instance that resolves, an earlier accepted boot source
    leaves no trace: setting one of "Pxe", "Hdd", "Cd" and then another
    gives the result and the cloud of setting the second alone.  In
    particular, setting the same source twice is the same as setting it
    once.  (With the call as the driver writes it, both sides end in the
    same [TypeError] and the cloud is as it was.) *)
Theorem set_boot_device_last_write_wins cc identity instance first second :
  lookup_server identity (servers cc) = Return (Some instance) ->
  In first ["Pxe"; "Hdd"; "Cd"] ->
  In second ["Pxe"; "Hdd"; "Cd"] ->
  (_ <- set_boot_device identity first ;; set_boot_device identity second) cc
  = set_boot_device identity second cc.
Proof.
  intros Hlook Hfirst Hsecond.
  apply BOOT_DEVICE_MAP_keys in Hfirst as [t1 H1].
  apply BOOT_DEVICE_MAP_keys in Hsecond as [t2 H2].
  unfold bind.
  rewrite (set_boot_device_mapped _ _ _ _ _ Hlook H1).
  now rewrite (set_boot_device_mapped _ _ _ _ _ Hlook H2).
Qed.


(** X12: the reverse table is the exact inverse of [BOOT_DEVICE_MAP]: a
    device name maps to a boot target if and only if the reverse table
    maps that target back to the name, so the dict comprehension loses no
    entry. *)
Theorem BOOT_DEVICE_MAP_REV_inverse k v :
  BOOT_DEVICE_MAP !! k = Some v <-> BOOT_DEVICE_MAP_REV !! v = Some k.
Proof.
  assert (BOOT_DEVICE_MAP_REV
          = <["cdrom" := "Cd"]> (<["hd" := "Hdd"]> (<["network" := "Pxe"]> ∅))) as ->
    by (vm_compute; reflexivity).
  unfold BOOT_DEVICE_MAP.
  rewrite !lookup_insert_Some, !lookup_empty.
  split; intros H; intuition (subst; try discriminate; auto 10).
Qed.

(** ** Inventory of a server whose flavor exists *)

(** X13: for an instance that resolves to a flavor of the catalog,
    [get_total_cpus] returns the flavor's [vcpus] as it is (no rounding,
    no lower bound), and leaves the cloud as it was. *)
Theorem get_total_cpus_is_vcpus cc identity instance flavor :
  lookup_server identity (servers cc) = Return (Some instance) ->
  flavors cc !! FlavorRef.id (Server.flavor instance) = Some flavor ->
  get_total_cpus identity cc = (Return (Some (Flavor.vcpus flavor)), cc).
Proof.
  intros Hlook Hflavor. unfold get_total_cpus, try_or_return.
  now rewrite (_get_flavor_found _ _ _ Hlook), Hflavor.
Qed.

Lemma round_to_53_bits_overflow n :
  2 ^ 1024 <= Z.abs n -> 2 ^ 1024 <= Z.abs (round_to_53_bits n).
Proof.
  intros Hbig. unfold round_to_53_bits.
  assert (0 < 2 ^ 1024) as Hpos by (apply Z.pow_pos_nonneg; lia).
  assert (0 < Z.abs n) as Habs by lia.
  assert (1024 <= Z.log2 (Z.abs n)) as Hlog by (apply Z.log2_le_pow2; lia).
  destruct (Z.leb_spec (Z.log2 (Z.abs n) + 1) 53) as [Hsmall | _]; [lia |].
  cbv zeta.
  set (a := Z.abs n) in *. set (sh := Z.log2 a + 1 - 53).
  set (q := Z.shiftr a sh).
  match goal with
  | |- context [if ?c then q + 1 else q] => set (q' := if c then q + 1 else q)
  end.
  assert (0 <= sh) as Hsh by (subst sh; lia).
  assert (0 < 2 ^ sh) as Hpow by (apply Z.pow_pos_nonneg; lia).
  assert (2 ^ 52 * 2 ^ sh <= a) as Hlow.
  { rewrite <- Z.pow_add_r by lia. replace (52 + sh) with (Z.log2 a) by (subst sh; lia).
    apply Z.log2_spec. exact Habs. }
  assert (2 ^ 52 <= q) as Hq.
  { subst q. rewrite Z.shiftr_div_pow2 by exact Hsh.
    apply Z.div_le_lower_bound; lia. }
  assert (q <= q') as Hq' by (subst q'; destruct (_ || _)%bool; lia).
  rewrite Z.shiftl_mul_pow2 by exact Hsh.
  rewrite !Z.abs_mul, (Z.abs_eq q'), (Z.abs_eq (2 ^ sh)) by lia.
  assert (Z.abs (Z.sgn n) = 1) as -> by (subst a; lia).
  assert (2 ^ 1024 <= 2 ^ 52 * 2 ^ sh) as Hgoal.
  { rewrite <- Z.pow_add_r by lia. apply Z.pow_le_mono_r; subst sh; lia. }
  nia.
Qed.

(** X14: for an instance that resolves to a flavor whose RAM figure has
    magnitude [2 ^ 1024] or more, [get_total_memory] raises
    [OverflowError] from the conversion to a double; the handler, which
    catches [FishyError] only, lets it through.  [get_total_cpus] of the
    same flavor still returns its [vcpus]. *)
Theorem get_total_memory_overflow cc identity instance flavor :
  lookup_server identity (servers cc) = Return (Some instance) ->
  flavors cc !! FlavorRef.id (Server.flavor instance) = Some flavor ->
  2 ^ 1024 <= Z.abs (Flavor.ram flavor) ->
  get_total_memory identity cc
    = (Raise (OverflowError "int too large to convert to float"), cc) /\
  get_total_cpus identity cc = (Return (Some (Flavor.vcpus flavor)), cc).
Proof.
  intros Hlook Hflavor Hbig. split.
  - unfold get_total_memory, try_or_return.
    rewrite (_get_flavor_found _ _ _ Hlook), Hflavor.
    unfold getattr, bind at 1, ret at 1, bind, truediv_1024, bind, float_of_int.
    apply round_to_53_bits_overflow in Hbig.
    destruct (Z.leb_spec (2 ^ 1024) (Z.abs (round_to_53_bits (Flavor.ram flavor))))
      as [_ | Hlt]; [reflexivity | lia].
  - unfold get_total_cpus, try_or_return.
    now rewrite (_get_flavor_found _ _ _ Hlook), Hflavor.
Qed.

End OpenStackDriver.

Lemma missing_instance_witness :
  lookup_server "vm3" (servers sample_cloud) = Return None /\
  get_power_state "devstack" "vm3" sample_cloud = (Return None, sample_cloud) /\
  uuid "devstack" "vm3" sample_cloud =
    (Raise (FishyError ("Error finding instance by UUID " +:+ dquote +:+ "vm3"
                        +:+ dquote +:+ " at OS cloud devstack" +:+ dquote)),
     sample_cloud).
Proof.
  split; [reflexivity |].
  pose proof (missing_instance_queries_and_commands "devstack" immediate
                sample_cloud "vm3" eq_refl) as H.
  cbv zeta in H. destruct H as (Hp & _ & _ & _ & Hu & _).
  split; [exact Hp | exact Hu].
Defined.

Lemma get_power_state_witness :
  lookup_server "vm1" (servers sample_cloud) = Return (Some vm1) /\
  (get_power_state "devstack" "vm1" sample_cloud = (Return (Some "On"), sample_cloud)
     <-> Server.power_state vm1 = NOVA_POWER_STATE_ON).
Proof.
  split; [reflexivity |].
  exact (proj1 (get_power_state_on_iff "devstack" sample_cloud "vm1" vm1 eq_refl)).
Defined.

Lemma set_boot_device_rejects_witness :
  lookup_server "vm1" (servers sample_cloud) = Return (Some vm1) /\
  set_boot_device "devstack" "vm1" "Floppy" sample_cloud =
    (Raise (FishyError "Unknown power state requested: Floppy"), sample_cloud).
Proof.
  split; [reflexivity |].
  apply (set_boot_device_rejects_unmapped "devstack" sample_cloud "vm1" vm1 "Floppy");
    [reflexivity | discriminate | discriminate | discriminate].
Defined.

(** C1 as stated fails on "Cd": the token is a key of the map, so the
    call is not rejected with the [FishyError] that an unknown token such
    as "Floppy" gets; it goes on to the metadata write, and the error it
    ends in is the [TypeError] of that call. *)
Lemma set_boot_device_Cd_passes_the_map :
  lookup_server "vm1" (servers sample_cloud) = Return (Some vm1) /\
  BOOT_DEVICE_MAP !! "Cd" = Some "cdrom" /\
  set_boot_device "devstack" "vm1" "Floppy" sample_cloud
    = (Raise (FishyError "Unknown power state requested: Floppy"), sample_cloud) /\
  set_boot_device "devstack" "vm1" "Cd" sample_cloud
    = set_server_metadata "5f2c" [ {[ "libvirt:pxe-first" := EmptyString ]} ] ∅ sample_cloud /\
  exists msg,
    set_boot_device "devstack" "vm1" "Cd" sample_cloud
      = (Raise (TypeError msg), sample_cloud).
Proof.
  split; [reflexivity |]. split; [reflexivity |]. split; [reflexivity |].
  split; [reflexivity |]. eexists. reflexivity.
Qed.

Lemma set_power_state_state_checked_witness :
  lookup_server "vm1" (servers sample_cloud) = Return (Some vm1) /\
  get_power_state "devstack" "vm1" sample_cloud = (Return (Some "On"), sample_cloud) /\
  set_power_state "devstack" immediate "vm1" "On" sample_cloud = (Return tt, sample_cloud) /\
  (_ <- set_power_state "devstack" immediate "vm1" "On" ;;
   set_power_state "devstack" immediate "vm1" "On") sample_cloud = (Return tt, sample_cloud).
Proof.
  split; [reflexivity |]. split; [reflexivity |].
  destruct (set_power_state_state_checked "devstack" immediate sample_cloud "vm1" vm1 eq_refl)
    as (Hon & _ & _).
  destruct (Hon eq_refl) as (H1 & _ & H2).
  split; [exact H1 | exact H2].
Defined.

(** The stopped server of the sample cloud, asked twice to power on, on a
    cloud that starts servers at once: one start is issued. *)
Example set_power_state_On_twice_vm2 :
  compute_calls
    (snd ((_ <- set_power_state "devstack" immediate "vm2" "On" ;;
           set_power_state "devstack" immediate "vm2" "On") sample_cloud))
  = [start_server "9a01"].
Proof.
  apply (set_power_state_On_twice_from_off "devstack" immediate sample_cloud "vm2" vm2);
    [reflexivity | discriminate | reflexivity].
Defined.

Lemma set_power_state_Nmi_witness :
  lookup_server "vm1" (servers sample_cloud) = Return (Some vm1) /\
  set_power_state "devstack" immediate "vm1" "Nmi" sample_cloud =
    (Raise (FishyError ("Unknown ResetType " +:+ dquote +:+ "Nmi" +:+ dquote)), sample_cloud).
Proof.
  split; [reflexivity |].
  apply (set_power_state_rejects_unknown "devstack" immediate sample_cloud "vm1" vm1 "Nmi");
    [reflexivity | simpl; intuition discriminate].
Defined.

Lemma get_total_memory_witness :
  get_total_memory "devstack" "vm1" sample_cloud = (Return (Some 2), sample_cloud) /\
  get_total_memory "devstack" "vm2" sample_cloud = (Return (Some 2), sample_cloud).
Proof.
  split.
  - destruct (get_total_memory_is_ceiling "devstack" sample_cloud "vm1" vm1
                (Flavor.mk 1537 1) eq_refl eq_refl) as (g & Hrun & Hbounds).
    + simpl. lia.
    + simpl in Hbounds. replace g with 2 in Hrun by lia. exact Hrun.
  - destruct (get_total_memory_is_ceiling "devstack" sample_cloud "vm2" vm2
                (Flavor.mk 2048 4) eq_refl eq_refl) as (g & Hrun & Hbounds).
    + simpl. lia.
    + simpl in Hbounds. replace g with 2 in Hrun by lia. exact Hrun.
Defined.

(** C4 as stated fails beyond the integers a double holds exactly: for a
    flavor reporting [2 ^ 53 + 1] units the conversion to a double drops
    the last bit, and the result lies below the ceiling. *)
Lemma get_total_memory_beyond_2_53 :
  lookup_server "huge" (servers huge_cloud) = Return (Some huge) /\
  flavors huge_cloud !! "f-huge" = Some (Flavor.mk 9007199254740993 8) /\
  fst (get_total_memory "devstack" "huge" huge_cloud) = Return (Some 8796093022208) /\
  1024 * 8796093022208 < 9007199254740993.
Proof. vm_compute. repeat split. Qed.


Lemma set_power_state_issues_witness :
  lookup_server "vm1" (servers sample_cloud) = Return (Some vm1) /\
  Server.power_state vm1 = NOVA_POWER_STATE_ON /\
  compute_calls (snd (set_power_state "devstack" immediate "vm1" "GracefulRestart"
                        sample_cloud))
  = [reboot_server "5f2c" "SOFT"].
Proof.
  split; [reflexivity |]. split; [reflexivity |].
  destruct (set_power_state_issues_the_command "devstack" immediate sample_cloud
              "vm1" vm1 eq_refl) as [_ Hon].
  destruct (Hon eq_refl) as (_ & _ & [_ Hsoft] & _).
  exact Hsoft.
Defined.

Lemma set_power_state_restart_witness :
  lookup_server "vm2" (servers sample_cloud) = Return (Some vm2) /\
  set_power_state "devstack" immediate "vm2" "ForceRestart" sample_cloud
  = (Return tt, sample_cloud).
Proof.
  split; [reflexivity |].
  apply (set_power_state_restart_when_off "devstack" immediate sample_cloud "vm2" vm2);
    [reflexivity | discriminate].
Defined.

Lemma set_boot_device_one_item_witness :
  lookup_server "vm1" (servers sample_cloud) = Return (Some vm1) /\
  metadata_of "9a01" (snd (set_boot_device "devstack" "vm1" "Hdd" sample_cloud))
  = metadata_of "9a01" sample_cloud.
Proof.
  split; [reflexivity |].
  apply (set_boot_device_writes_one_item "devstack" sample_cloud "vm1" vm1 "Hdd");
    [reflexivity | discriminate].
Defined.

Lemma set_boot_device_last_write_witness :
  lookup_server "vm1" (servers sample_cloud) = Return (Some vm1) /\
  (_ <- set_boot_device "devstack" "vm1" "Hdd" ;; set_boot_device "devstack" "vm1" "Pxe")
    sample_cloud
  = set_boot_device "devstack" "vm1" "Pxe" sample_cloud.
Proof.
  split; [reflexivity |].
  apply (set_boot_device_last_write_wins "devstack" sample_cloud "vm1" vm1 "Hdd" "Pxe");
    [reflexivity | simpl; tauto | simpl; tauto].
Defined.

Lemma get_total_cpus_witness :
  lookup_server "vm2" (servers sample_cloud) = Return (Some vm2) /\
  get_total_cpus "devstack" "vm2" sample_cloud = (Return (Some 4), sample_cloud).
Proof.
  split; [reflexivity |].
  apply (get_total_cpus_is_vcpus "devstack" sample_cloud "vm2" vm2 (Flavor.mk 2048 4));
    reflexivity.
Defined.

Lemma get_total_memory_overflow_witness :
  lookup_server "beyond" (servers beyond_cloud) = Return (Some beyond) /\
  get_total_memory "devstack" "beyond" beyond_cloud
  = (Raise (OverflowError "int too large to convert to float"), beyond_cloud).
Proof.
  split; [reflexivity |].
  apply (get_total_memory_overflow "devstack" beyond_cloud "beyond" beyond
           (Flavor.mk (2 ^ 1024) 2)); [reflexivity | reflexivity |].
  simpl. lia.
Defined.

Lemma status_polls_witness :
  lookup_server "twin" (servers twins_cloud)
    = Raise (SDKException "More than one Server exists with the name 'twin'.") /\
  get_power_state "devstack" "twin" twins_cloud
    = (Raise (SDKException "More than one Server exists with the name 'twin'."),
       twins_cloud).
Proof.
  split; [reflexivity |].
  exact (proj1 (proj2 (status_polls_raise_with_the_lookup_only "devstack" twins_cloud "twin")
                  _ eq_refl)).
Defined.
